(** * Verification of [jules-scratch/verification/verify_map.py]

    The script drives a headless browser through Playwright's synchronous
    API: it opens a page, registers a console observer, navigates to a local
    HTML file, waits, takes a screenshot and closes the browser.

    The development is a shallow embedding.  The script itself becomes a
    program in a small state-and-exception monad over a [World]; every call
    it makes into a library (Playwright, [os.path]) is answered by an
    environment [env], over which all theorems are universally quantified.

    What the libraries do is fixed as follows, after their documentation:
    - a call either raises, and then has no effect, or returns;
    - console messages reach the observers of the page while a call on the
      page or the browser is in progress;
    - [Page.screenshot] captures the viewport unless [full_page] is true,
      and writes the image to [path], resolved by the operating system
      against the working directory;
    - leaving the [with sync_playwright()] block stops the driver, and with
      it a browser that is still running; the exception in flight, if any,
      goes on;
    - [os.path.abspath] is [posixpath.abspath]. *)

From Stdlib Require Import ZArith String Ascii List Bool Lia.
From stdpp Require Import base gmap strings list.

Open Scope string_scope.
Open Scope list_scope.

(** * Part I: the model *)

(** ** Strings *)

(** [s.startswith(c)] and [s.endswith(c)] for a one-character [c]. *)
Definition startswith (s : string) (c : ascii) : bool :=
  match s with
  | EmptyString => false
  | String x _ => Ascii.eqb x c
  end.

Fixpoint endswith (s : string) (c : ascii) : bool :=
  match s with
  | EmptyString => false
  | String x EmptyString => Ascii.eqb x c
  | String _ r => endswith r c
  end.

(** Number of occurrences of a character: [s.count(c)]. *)
Fixpoint count_char (c : ascii) (s : string) : nat :=
  match s with
  | EmptyString => 0
  | String x r => (if Ascii.eqb x c then 1 else 0) + count_char c r
  end.

(** ** [os.path] on POSIX

  [os.path.abspath] is CPython's [posixpath.abspath]:
  [normpath(join(os.getcwd(), path))] for a relative [path].  The three
  functions are transcribed from [posixpath.py]; the current working
  directory is an explicit argument. *)

Module posixpath.

Definition sep : ascii := "/"%char.

(** [path.split('/')] *)
Fixpoint split (path : string) : list string :=
  match path with
  | EmptyString => [EmptyString]
  | String c rest =>
      if Ascii.eqb c sep then EmptyString :: split rest
      else match split rest with
           | [] => [String c EmptyString]
           | comp :: comps => String c comp :: comps
           end
  end.

(** ['/'.join(comps)] *)
Fixpoint sep_join (comps : list string) : string :=
  match comps with
  | [] => EmptyString
  | [comp] => comp
  | comp :: rest => comp +:+ String sep (sep_join rest)
  end.

Definition isabs (s : string) : bool := startswith s sep.

(** [join(a, b)]: an absolute [b] replaces [a]; otherwise [b] is appended,
    with a separator unless [a] is empty or already ends in one. *)
Definition join (a b : string) : string :=
  if startswith b sep then b
  else if String.eqb a "" || endswith a sep then a +:+ b
  else a +:+ String sep b.

(** POSIX keeps exactly two leading slashes apart; three or more count as
    one. *)
Definition initial_slashes (path : string) : nat :=
  match path with
  | String a (String b (String c _)) =>
      if Ascii.eqb a sep then
        if Ascii.eqb b sep then (if Ascii.eqb c sep then 1 else 2) else 1
      else 0
  | String a (String b EmptyString) =>
      if Ascii.eqb a sep then (if Ascii.eqb b sep then 2 else 1) else 0
  | String a EmptyString => if Ascii.eqb a sep then 1 else 0
  | EmptyString => 0
  end.

Definition is_nil {A} (l : list A) : bool :=
  match l with [] => true | _ => false end.

(** One iteration of the loop of [normpath] over the components. *)
Definition normpath_step (slashes : nat) (new_comps : list string)
                         (comp : string) : list string :=
  if String.eqb comp "" || String.eqb comp "." then new_comps
  else if negb (String.eqb comp "..")
          || (Nat.eqb slashes 0 && is_nil new_comps)
          || (negb (is_nil new_comps) && String.eqb (List.last new_comps "") "..")
       then new_comps ++ [comp]
  else if negb (is_nil new_comps) then removelast new_comps
  else new_comps.

Fixpoint repeat_sep (n : nat) : string :=
  match n with
  | O => EmptyString
  | S k => String sep (repeat_sep k)
  end.

Definition normpath (path : string) : string :=
  if String.eqb path "" then "."
  else
    let slashes := initial_slashes path in
    let comps := fold_left (normpath_step slashes) (split path) [] in
    let path' := repeat_sep slashes +:+ sep_join comps in
    if String.eqb path' "" then "." else path'.

Definition abspath (cwd path : string) : string :=
  normpath (if isabs path then path else join cwd path).

End posixpath.

(** ** Paths under a working directory *)

(** A directory is named by the components that lead to it from the root;
    [os.getcwd()] returns them joined behind a leading slash.  A component
    is [plain] when it is a file name: not empty, not [.] or [..], and free
    of slashes. *)
Definition plain (c : string) : bool :=
  negb (String.eqb c "") && negb (String.eqb c ".") && negb (String.eqb c "..")
  && Nat.eqb (count_char posixpath.sep c) 0.

Definition getcwd (dir : list string) : string :=
  String posixpath.sep (posixpath.sep_join dir).

(** ** Values exchanged with the libraries *)

(** A raised Python exception. *)
Record PyErr := { err_type : string; err_msg : string }.

(** Outcome of a call: a returned value or a raised exception. *)
Inductive Result (A : Type) : Type :=
| Ok (a : A)
| Raise (e : PyErr).
Arguments Ok {A} a.
Arguments Raise {A} e.

(** A browser console message; the script reads only [msg.text]. *)
Record ConsoleMessage := { msg_type : string; text : string }.

(** Handles returned by Playwright.  The script owns one of each. *)
Inductive Playwright := PlaywrightObj.
Inductive BrowserType := Chromium.
Inductive Browser := BrowserObj.
Inductive Page := PageObj.

Definition chromium (p : Playwright) : BrowserType := Chromium.

(** The calls the script makes into its libraries, with their arguments.
    [page_screenshot] carries the keyword arguments as passed: [None] is a
    keyword left out. *)
Inductive Call :=
| sync_playwright_enter
| chromium_launch
| browser_new_page
| page_on (event : string)
| os_path_abspath (path : string)
| page_goto (url : string)
| page_wait_for_timeout (timeout : Z)
| page_screenshot (path : option string) (full_page : option bool)
| browser_close
| sync_playwright_exit.

(** What the outside world answers to a call: whether it raises, which
    console messages the page emits while the call is in progress, and the
    image a screenshot produces. *)
Record Reply := {
  raises : option PyErr;
  console : list ConsoleMessage;
  png : string
}.

(** The environment decides each reply from the calls made so far. *)
Definition Env := list Call -> Call -> Reply.

(** Playwright documents [full_page] of [Page.screenshot] as: when true,
    the full scrollable page is captured instead of the visible viewport;
    it defaults to false. *)
Definition full_page_default : bool := false.

Definition captures_full_page (full_page : option bool) : bool :=
  match full_page with
  | Some b => b
  | None => full_page_default
  end.

(** ** The world *)

Inductive Proc := NotStarted | Running | Exited.

(** [print(s)] writes [s] and a newline to standard output. *)
Definition Stdout := string.
Definition newline : ascii := "010"%char.
Definition print (s : string) (out : Stdout) : Stdout :=
  out +:+ s +:+ String newline "".

(** An event handler is a Python callable run for its effect; the handlers
    of this program only print. *)
Definition Handler := ConsoleMessage -> Stdout -> Stdout.

Record World := {
  cwd : string;                        (* os.getcwd() *)
  script_file : string;                (* __file__ *)
  files : gmap string string;          (* file contents by absolute path *)
  stdout : Stdout;
  driver : Proc;                       (* the Playwright driver process *)
  browser : Proc;                      (* the browser process *)
  releases : nat;                      (* times the browser process was released *)
  pages : nat;                         (* pages opened *)
  location : option string;            (* URL the page shows *)
  handlers : list (string * Handler);  (* observers registered on the page *)
  slept : Z;                           (* milliseconds spent in fixed waits *)
  trace : list Call                    (* library calls made so far *)
}.

Definition set_files (f : gmap string string) (w : World) : World :=
  {| cwd := cwd w; script_file := script_file w; files := f;
     stdout := stdout w; driver := driver w; browser := browser w;
     releases := releases w; pages := pages w; location := location w;
     handlers := handlers w; slept := slept w; trace := trace w |}.

Definition set_stdout (o : Stdout) (w : World) : World :=
  {| cwd := cwd w; script_file := script_file w; files := files w;
     stdout := o; driver := driver w; browser := browser w;
     releases := releases w; pages := pages w; location := location w;
     handlers := handlers w; slept := slept w; trace := trace w |}.

Definition set_driver (d : Proc) (w : World) : World :=
  {| cwd := cwd w; script_file := script_file w; files := files w;
     stdout := stdout w; driver := d; browser := browser w;
     releases := releases w; pages := pages w; location := location w;
     handlers := handlers w; slept := slept w; trace := trace w |}.

Definition set_browser (b : Proc) (n : nat) (w : World) : World :=
  {| cwd := cwd w; script_file := script_file w; files := files w;
     stdout := stdout w; driver := driver w; browser := b;
     releases := n; pages := pages w; location := location w;
     handlers := handlers w; slept := slept w; trace := trace w |}.

Definition set_page (n : nat) (l : option string)
                    (h : list (string * Handler)) (w : World) : World :=
  {| cwd := cwd w; script_file := script_file w; files := files w;
     stdout := stdout w; driver := driver w; browser := browser w;
     releases := releases w; pages := n; location := l;
     handlers := h; slept := slept w; trace := trace w |}.

Definition set_slept (t : Z) (w : World) : World :=
  {| cwd := cwd w; script_file := script_file w; files := files w;
     stdout := stdout w; driver := driver w; browser := browser w;
     releases := releases w; pages := pages w; location := location w;
     handlers := handlers w; slept := t; trace := trace w |}.

Definition log (c : Call) (w : World) : World :=
  {| cwd := cwd w; script_file := script_file w; files := files w;
     stdout := stdout w; driver := driver w; browser := browser w;
     releases := releases w; pages := pages w; location := location w;
     handlers := handlers w; slept := slept w; trace := trace w ++ [c] |}.

(** Delivery of one event to the handlers registered for it, in
    registration order. *)
Fixpoint emit (event : string) (msg : ConsoleMessage)
              (hs : list (string * Handler)) (out : Stdout) : Stdout :=
  match hs with
  | [] => out
  | (ev, h) :: rest =>
      emit event msg rest (if String.eqb ev event then h msg out else out)
  end.

(** Delivery of the console messages of one call, in emission order. *)
Definition dispatch (msgs : list ConsoleMessage) (w : World) : World :=
  set_stdout
    (fold_left (fun out msg => emit "console" msg (handlers w) out) msgs (stdout w))
    w.

(** The browser process goes away at most once: releasing a browser that
    is not running changes nothing. *)
Definition release_browser (w : World) : World :=
  match browser w with
  | Running => set_browser Exited (S (releases w)) w
  | _ => w
  end.

(** A relative path handed to the operating system names a file under the
    current working directory. *)
Definition os_resolve (w : World) (path : string) : string :=
  posixpath.abspath (cwd w) path.

(** Opening [path] for writing and storing [data]: the file is created or
    its previous content replaced. *)
Definition write_file (path data : string) (w : World) : World :=
  set_files (<[os_resolve w path := data]> (files w)) w.

(** ** The monad of the script: state and exceptions *)

Definition M (A : Type) : Type := World -> Result A * World.

Definition ret {A} (a : A) : M A := fun w => (Ok a, w).

(** Sequencing: an exception skips the rest and keeps the state reached. *)
Definition bind {A B} (m : M A) (k : A -> M B) : M B :=
  fun w =>
    match m w with
    | (Ok a, w') => k a w'
    | (Raise e, w') => (Raise e, w')
    end.

Definition gets {A} (f : World -> A) : M A := fun w => (Ok (f w), w).

Declare Scope script_scope.
Delimit Scope script_scope with script.
Notation "x <- m ;; k" := (bind m (fun x => k))
  (at level 100, m at next level, right associativity) : script_scope.
Notation "m ;; k" := (bind m (fun _ => k))
  (at level 100, right associativity) : script_scope.
Open Scope script_scope.

Section Script.

(** The behaviour of everything outside the script. *)
Variable env : Env.

(** ** The library calls

    A call is recorded, the console messages emitted while it runs are
    delivered when the call pumps the event loop, and then the call either
    raises, leaving the state as it is, or takes effect. *)
Definition library_call (c : Call) (pumps : bool)
                        (effect : Reply -> World -> World) : M Reply :=
  fun w =>
    let r := env (trace w) c in
    let w1 := log c w in
    let w2 := if pumps then dispatch (console r) w1 else w1 in
    match raises r with
    | Some e => (Raise e, w2)
    | None => (Ok r, effect r w2)
    end.

(** [sync_playwright().__enter__()]: starts the driver. *)
Definition sync_playwright : M Playwright :=
  _ <- library_call sync_playwright_enter false
         (fun _ w => set_driver Running w) ;;
  ret PlaywrightObj.

(** [sync_playwright().__exit__(...)]: stops the driver, which takes down
    a browser it still runs.  It returns [None], so an exception in flight
    is not swallowed; the teardown itself is taken to complete. *)
Definition playwright_exit (w : World) : World :=
  release_browser (set_driver Exited (log sync_playwright_exit w)).

(** [with sync_playwright() as p: body] *)
Definition with_sync_playwright {A} (body : Playwright -> M A) : M A :=
  fun w =>
    match sync_playwright w with
    | (Raise e, w1) => (Raise e, w1)
    | (Ok p, w1) => let '(r, w2) := body p w1 in (r, playwright_exit w2)
    end.

(** [browser_type.launch()] *)
Definition launch (bt : BrowserType) : M Browser :=
  _ <- library_call chromium_launch false
         (fun _ w => set_browser Running (releases w) w) ;;
  ret BrowserObj.

(** [browser.new_page()]: a fresh page, without observers. *)
Definition new_page (b : Browser) : M Page :=
  _ <- library_call browser_new_page false
         (fun _ w => set_page (S (pages w)) (Some "about:blank") [] w) ;;
  ret PageObj.

(** [page.on(event, handler)] *)
Definition on (p : Page) (event : string) (handler : Handler) : M unit :=
  _ <- library_call (page_on event) false
         (fun _ w => set_page (pages w) (location w)
                       (handlers w ++ [(event, handler)]) w) ;;
  ret tt.

(** [os.path.abspath(path)] *)
Definition abspath (path : string) : M string :=
  _ <- library_call (os_path_abspath path) false (fun _ w => w) ;;
  gets (fun w => posixpath.abspath (cwd w) path).

(** [page.goto(url)] *)
Definition goto (p : Page) (url : string) : M unit :=
  _ <- library_call (page_goto url) true
         (fun _ w => set_page (pages w) (Some url) (handlers w) w) ;;
  ret tt.

(** [page.wait_for_timeout(timeout)] *)
Definition wait_for_timeout (p : Page) (timeout : Z) : M unit :=
  _ <- library_call (page_wait_for_timeout timeout) true
         (fun _ w => set_slept (slept w + timeout)%Z w) ;;
  ret tt.

(** [page.screenshot(path=..., full_page=...)]: the image is written to
    [path] when one is given, replacing what the file held. *)
Definition screenshot (p : Page) (path : option string)
                      (full_page : option bool) : M string :=
  r <- library_call (page_screenshot path full_page) true
         (fun r w =>
            match path with
            | Some f => write_file f (png r) w
            | None => w
            end) ;;
  ret (png r).

(** [browser.close()] *)
Definition close (b : Browser) : M unit :=
  _ <- library_call browser_close true (fun _ w => release_browser w) ;;
  ret tt.

(** ** The script *)

(** [lambda msg: print(f"CONSOLE: {msg.text}")] *)
Definition console_observer : Handler :=
  fun msg => print ("CONSOLE: " +:+ text msg).

Definition index_html : string := "jules-scratch/verification/index.html".
Definition verification_png : string :=
  "jules-scratch/verification/verification.png".

(** [f'file://{html_file_path}'] *)
Definition file_url (html_file_path : string) : string :=
  "file://" +:+ html_file_path.

(** The body of the [with] block of [run]. *)
Definition run_body (p : Playwright) : M unit :=
  browser <- launch (chromium p) ;;
  page <- new_page browser ;;
  on page "console" console_observer ;;
  html_file_path <- abspath index_html ;;
  goto page (file_url html_file_path) ;;
  wait_for_timeout page 2000 ;;
  screenshot page (Some verification_png) None ;;
  close browser.

Definition run : M unit := with_sync_playwright run_body.

(** The module body: [run()] under the [__name__ == "__main__"] guard.
    The imports and the [def] before it only bind names. *)
Definition module_body (name : string) : M unit :=
  if String.eqb name "__main__" then run else ret tt.

End Script.

(** ** The calls of a run *)

(** The library calls of [run] in program order, up to [browser.close()].
    The URL is the one [os.path.abspath] yields in the world at hand. *)
Definition script (w : World) : list Call :=
  [ sync_playwright_enter;
    chromium_launch;
    browser_new_page;
    page_on "console";
    os_path_abspath index_html;
    page_goto (file_url (posixpath.abspath (cwd w) index_html));
    page_wait_for_timeout 2000;
    page_screenshot (Some verification_png) None;
    browser_close ].

(** Position and exception of the first call of [todo] that raises, when
    the calls are made one after the other starting from history [hist]. *)
Fixpoint first_failure_from (env : Env) (hist todo : list Call) (k : nat)
  : option (nat * PyErr) :=
  match todo with
  | [] => None
  | c :: rest =>
      match raises (env hist c) with
      | Some e => Some (k, e)
      | None => first_failure_from env (hist ++ [c]) rest (S k)
      end
  end.

Definition first_failure (env : Env) (w : World) : option (nat * PyErr) :=
  first_failure_from env (trace w) (script w) 0.

(** The calls a run is expected to add to the trace: the script up to and
    including the first call that raises, then the exit of the [with] block
    if the block was entered. *)
Definition calls_made (env : Env) (w : World) : list Call :=
  match first_failure env w with
  | None => script w ++ [sync_playwright_exit]
  | Some (O, _) => [sync_playwright_enter]
  | Some (S k, _) => firstn (S (S k)) (script w) ++ [sync_playwright_exit]
  end.

Definition outcome (env : Env) (w : World) : Result unit :=
  match first_failure env w with
  | None => Ok tt
  | Some (_, e) => Raise e
  end.

(** Call number [k] of the script is reached: every call before it
    returned.  Calls are numbered from 0 ([sync_playwright_enter]) to 8
    ([browser_close]); [reaches env w 9] says that all of them returned. *)
Definition reaches (env : Env) (w : World) (k : nat) : bool :=
  match first_failure env w with
  | None => true
  | Some (j, _) => Nat.leb k j
  end.

(** The history before call number [k], and the reply that call gets. *)
Definition history (w : World) (k : nat) : list Call :=
  fold_left (fun h c => h ++ [c]) (firstn k (script w)) (trace w).

Definition reply_at (env : Env) (w : World) (k : nat) : Reply :=
  env (history w k) (nth k (script w) sync_playwright_exit).

(** The state a call leaves behind before it raises or takes effect. *)
Definition pumped (env : Env) (c : Call) (pumps : bool) (w : World) : World :=
  if pumps then dispatch (console (env (trace w) c)) (log c w) else log c w.

(** ** Standard output *)

(** What the observer of the script writes for one message, and for a list
    of messages delivered in order. *)
Definition console_line (msg : ConsoleMessage) : string :=
  "CONSOLE: " +:+ text msg +:+ String newline "".

Fixpoint console_lines (msgs : list ConsoleMessage) : string :=
  match msgs with
  | [] => ""
  | msg :: rest => console_line msg +:+ console_lines rest
  end.

(** The console messages delivered during a run: those emitted while
    [goto], [wait_for_timeout], [screenshot] and [close] were in progress,
    as far as the run got. *)
Definition delivered (env : Env) (w : World) : list ConsoleMessage :=
  flat_map (fun k => if reaches env w k then console (reply_at env w k) else [])
           [5; 6; 7; 8].

(** Lines a write adds to standard output. *)
Definition lines_written (before after : Stdout) : nat :=
  count_char newline after - count_char newline before.

(** ** Notions used by the statements *)

Definition is_screenshot (c : Call) : bool :=
  match c with
  | page_screenshot _ _ => true
  | _ => false
  end.

(** [a] occurs before [b] in [l]. *)
Definition precedes (a b : Call) (l : list Call) : Prop :=
  exists l1 l2 l3, l = l1 ++ a :: l2 ++ b :: l3.


(** ** Scenarios *)

(** A reply of a call that returns, with no console traffic. *)
Definition ok_reply : Reply := {| raises := None; console := []; png := "PNG" |}.

(** Every call returns and the page logs nothing. *)
Definition quiet : Env := fun _ _ => ok_reply.

(** [index.html] is missing: navigation raises. *)
Definition net_error : PyErr :=
  {| err_type := "playwright.Error"; err_msg := "net::ERR_FILE_NOT_FOUND" |}.

Definition missing_page : Env :=
  fun _ c =>
    match c with
    | page_goto _ => {| raises := Some net_error; console := []; png := "" |}
    | _ => ok_reply
    end.

(** The page logs [ready] while it loads. *)
Definition ready_page : Env :=
  fun _ c =>
    match c with
    | page_goto _ =>
        {| raises := None;
           console := [{| msg_type := "log"; text := "ready" |}];
           png := "" |}
    | _ => ok_reply
    end.

(** A checkout of the repository in [/home/dev/Atlas], with a screenshot
    left by an earlier run. *)
Definition checkout : World :=
  {| cwd := "/home/dev/Atlas";
     script_file := "/home/dev/Atlas/jules-scratch/verification/verify_map.py";
     files := {[ "/home/dev/Atlas/jules-scratch/verification/verification.png" := "OLD" ]};
     stdout := "";
     driver := NotStarted;
     browser := NotStarted;
     releases := 0;
     pages := 0;
     location := None;
     handlers := [];
     slept := 0;
     trace := [] |}.

(** [console.log("a\nb")]: a message whose text has a line break. *)
Definition two_line_message : ConsoleMessage :=
  {| msg_type := "log"; text := String "a" (String newline (String "b" "")) |}.


(** A later run whose screenshot differs from the first. *)
Definition second_shot : Env :=
  fun _ _ => {| raises := None; console := []; png := "PNG2" |}.

(** The Playwright driver cannot be started. *)
Definition driver_error : PyErr :=
  {| err_type := "playwright.Error"; err_msg := "driver not found" |}.

Definition no_driver : Env :=
  fun _ c =>
    match c with
    | sync_playwright_enter =>
        {| raises := Some driver_error; console := []; png := "" |}
    | _ => ok_reply
    end.

(** The browser executable is missing: [launch] raises. *)
Definition launch_error : PyErr :=
  {| err_type := "playwright.Error"; err_msg := "executable does not exist" |}.

Definition launch_fails : Env :=
  fun _ c =>
    match c with
    | chromium_launch => {| raises := Some launch_error; console := []; png := "" |}
    | _ => ok_reply
    end.

(** Everything works until [browser.close()], which raises. *)
Definition close_error : PyErr :=
  {| err_type := "playwright.Error"; err_msg := "connection closed" |}.

Definition close_fails : Env :=
  fun _ c =>
    match c with
    | browser_close => {| raises := Some close_error; console := []; png := "" |}
    | _ => ok_reply
    end.

(** The message text is free of line breaks. *)
Definition single_line (msg : ConsoleMessage) : bool :=
  Nat.eqb (count_char newline (text msg)) 0.

(** ** File URLs

    The script builds its URL by putting [file://] in front of the path,
    without escaping.  A browser takes the path of a URL to end at the first
    [?] or [#] (what follows is the query or the fragment), and maps the
    path of a [file:] URL with an empty host to the file of that name.
    [file_of_url] gives that file for the URLs on which no further rewriting
    takes place: an empty host, a path made of [/] and unreserved characters
    (letters, digits, [-], [.], [_], [~]) and free of [.] and [..]
    components.  On other URLs (escapes, backslashes, dot segments) it gives
    no answer. *)

Fixpoint string_forall (f : ascii -> bool) (s : string) : bool :=
  match s with
  | EmptyString => true
  | String c rest => f c && string_forall f rest
  end.

Definition unreserved (c : ascii) : bool :=
  let n := nat_of_ascii c in
  (Nat.leb 48 n && Nat.leb n 57) || (Nat.leb 65 n && Nat.leb n 90)
  || (Nat.leb 97 n && Nat.leb n 122)
  || Ascii.eqb c "-" || Ascii.eqb c "." || Ascii.eqb c "_" || Ascii.eqb c "~".


Definition is_delim (c : ascii) : bool := Ascii.eqb c "#" || Ascii.eqb c "?".

(** The part of a string before the first [?] or [#]. *)
Fixpoint before_delim (s : string) : string :=
  match s with
  | EmptyString => EmptyString
  | String c rest => if is_delim c then EmptyString else String c (before_delim rest)
  end.

Fixpoint strip_prefix (prefix s : string) : option string :=
  match prefix, s with
  | EmptyString, _ => Some s
  | String a prefix', String b s' =>
      if Ascii.eqb a b then strip_prefix prefix' s' else None
  | String _ _, EmptyString => None
  end.

Definition is_dot (comp : string) : bool :=
  String.eqb comp "." || String.eqb comp "..".

Definition path_char (c : ascii) : bool := unreserved c || Ascii.eqb c posixpath.sep.

Definition file_of_url (url : string) : option string :=
  match strip_prefix "file://" url with
  | Some rest =>
      let path := before_delim rest in
      if startswith path posixpath.sep
         && string_forall path_char path
         && negb (existsb is_dot (posixpath.split path))
      then Some path
      else None
  | None => None
  end.


(** * Part II: facts about the model *)

(** ** Strings *)

Lemma append_cons x (a b : string) : String x a +:+ b = String x (a +:+ b).
Proof. reflexivity. Qed.

Lemma append_assoc (a b c : string) : (a +:+ b) +:+ c = a +:+ (b +:+ c).
Proof.
  induction a as [|x a IH]; [reflexivity |].
  rewrite !append_cons. now rewrite IH.
Qed.

Lemma append_nil_r (a : string) : a +:+ "" = a.
Proof.
  induction a as [|x a IH]; [reflexivity |].
  rewrite append_cons. now rewrite IH.
Qed.

Lemma count_char_app c (a b : string) :
  count_char c (a +:+ b) = count_char c a + count_char c b.
Proof.
  induction a as [|x a IH]; [reflexivity |].
  rewrite append_cons. simpl. rewrite IH. lia.
Qed.

(** ** [os.path] on examples *)

Example split_ex : posixpath.split "/a//b/" = [""; "a"; ""; "b"; ""].
Proof. reflexivity. Qed.

Example normpath_ex1 : posixpath.normpath "/a/./b/../c//d/" = "/a/c/d".
Proof. reflexivity. Qed.

Example normpath_ex2 : posixpath.normpath "../a/../../b" = "../../b".
Proof. reflexivity. Qed.

Example normpath_ex3 : posixpath.normpath "//a/.." = "//".
Proof. reflexivity. Qed.

Example normpath_ex4 : posixpath.normpath "///a" = "/a".
Proof. reflexivity. Qed.

Example abspath_ex :
  posixpath.abspath "/home/dev/Atlas" "jules-scratch/verification/index.html"
  = "/home/dev/Atlas/jules-scratch/verification/index.html".
Proof. reflexivity. Qed.

(** ** Paths under a working directory *)

Section PathFacts.

Import posixpath.

Lemma split_nonempty s : split s <> [].
Proof.
  destruct s as [|c s]; simpl; [discriminate |].
  destruct (Ascii.eqb c sep); [discriminate |].
  destruct (split s); discriminate.
Qed.

Lemma split_app_sep a b : split (a +:+ String sep b) = split a ++ split b.
Proof.
  induction a as [|c a IH].
  - reflexivity.
  - rewrite append_cons. simpl. rewrite IH.
    destruct (Ascii.eqb c sep); [reflexivity |].
    destruct (split a) as [|h t] eqn:E; [now apply split_nonempty in E |].
    reflexivity.
Qed.

Lemma split_sepfree c : count_char sep c = 0 -> split c = [c].
Proof.
  induction c as [|x c IH]; simpl; [reflexivity |].
  destruct (Ascii.eqb x sep); [discriminate |].
  intros H. now rewrite IH.
Qed.

Lemma sep_join_cons c l :
  l <> [] -> sep_join (c :: l) = c +:+ String sep (sep_join l).
Proof. destruct l; [congruence | reflexivity]. Qed.

Lemma sep_join_app l1 l2 :
  l1 <> [] -> l2 <> [] ->
  sep_join (l1 ++ l2) = sep_join l1 +:+ String sep (sep_join l2).
Proof.
  induction l1 as [|c l1 IH]; [congruence |]. intros _ H2.
  destruct l1 as [|c' l1].
  - simpl app. now rewrite sep_join_cons.
  - change ((c :: c' :: l1) ++ l2) with (c :: ((c' :: l1) ++ l2)).
    rewrite !sep_join_cons by discriminate.
    rewrite IH by (discriminate || assumption).
    now rewrite append_assoc, append_cons.
Qed.

Lemma plain_sepfree c : plain c = true -> count_char sep c = 0.
Proof.
  unfold plain. rewrite !andb_true_iff. intros [_ H]. now apply Nat.eqb_eq.
Qed.

Lemma split_sep_join l :
  l <> [] -> Forall (fun c => plain c = true) l -> split (sep_join l) = l.
Proof.
  induction l as [|c l IH]; [congruence |]. intros _ H.
  inversion H as [|? ? Hc Hl]; subst.
  destruct l as [|c' l].
  - simpl. now apply split_sepfree, plain_sepfree.
  - rewrite sep_join_cons by discriminate.
    rewrite split_app_sep, IH by (discriminate || assumption).
    now rewrite split_sepfree by now apply plain_sepfree.
Qed.

Lemma normpath_step_plain n acc c :
  plain c = true -> normpath_step n acc c = acc ++ [c].
Proof.
  unfold plain, normpath_step. rewrite !andb_true_iff, !negb_true_iff.
  intros [[[H1 H2] H3] _]. now rewrite H1, H2, H3.
Qed.

Lemma fold_normpath_plain n l acc :
  Forall (fun c => plain c = true) l ->
  fold_left (normpath_step n) l acc = acc ++ l.
Proof.
  revert acc. induction l as [|c l IH]; intros acc H; simpl.
  - now rewrite app_nil_r.
  - inversion H; subst. rewrite normpath_step_plain by assumption.
    rewrite IH by assumption. now rewrite <- app_assoc.
Qed.

Lemma plain_startswith c : plain c = true -> startswith c sep = false.
Proof.
  intros H. pose proof (plain_sepfree _ H) as Hs.
  destruct c as [|x c]; [reflexivity |]. simpl in *.
  destruct (Ascii.eqb x sep); [discriminate | reflexivity].
Qed.

Lemma plain_nonempty c : plain c = true -> c <> "".
Proof. intros H ->. discriminate H. Qed.

Lemma startswith_app a b c :
  a <> "" -> startswith (a +:+ b) c = startswith a c.
Proof. destruct a; [congruence | reflexivity]. Qed.

Lemma sep_join_startswith c l :
  plain c = true -> startswith (sep_join (c :: l)) sep = false.
Proof.
  intros H. destruct l.
  - now apply plain_startswith.
  - rewrite sep_join_cons by discriminate.
    rewrite startswith_app by now apply plain_nonempty.
    now apply plain_startswith.
Qed.

Lemma endswith_cons x s c : s <> "" -> endswith (String x s) c = endswith s c.
Proof. destruct s; [congruence | reflexivity]. Qed.

Lemma endswith_app a b c : b <> "" -> endswith (a +:+ b) c = endswith b c.
Proof.
  intros Hb. induction a as [|x a IH]; [reflexivity |].
  rewrite append_cons, endswith_cons; [exact IH |].
  destruct a; [exact Hb | discriminate].
Qed.

Lemma plain_endswith c : plain c = true -> endswith c sep = false.
Proof.
  intros H. pose proof (plain_sepfree _ H) as Hs. clear H.
  induction c as [|x c IH]; [reflexivity |]. simpl in Hs.
  destruct (Ascii.eqb x sep) eqn:E; [discriminate |].
  destruct c as [|y c]; [simpl; exact E |].
  rewrite endswith_cons by discriminate. now apply IH.
Qed.

Lemma sep_join_nonempty l :
  l <> [] -> Forall (fun c => plain c = true) l -> sep_join l <> "".
Proof.
  destruct l as [|c l]; [congruence |]. intros _ H. inversion H; subst.
  pose proof (plain_nonempty c) as Hc.
  destruct c; [now exfalso; apply Hc |].
  destruct l; [discriminate |]. rewrite sep_join_cons by discriminate.
  discriminate.
Qed.

Lemma sep_join_endswith l :
  l <> [] -> Forall (fun c => plain c = true) l ->
  endswith (sep_join l) sep = false.
Proof.
  induction l as [|c l IH]; [congruence |]. intros _ H.
  inversion H; subst. destruct l as [|c' l].
  - now apply plain_endswith.
  - rewrite sep_join_cons by discriminate.
    rewrite endswith_app by discriminate.
    rewrite endswith_cons by (apply sep_join_nonempty; [discriminate | assumption]).
    apply IH; [discriminate | assumption].
Qed.

(** A path [/c1/.../cn] of plain components is in normal form. *)
Lemma normpath_getcwd l :
  l <> [] -> Forall (fun c => plain c = true) l ->
  normpath (getcwd l) = getcwd l.
Proof.
  intros Hl H. unfold normpath, getcwd.
  assert (Hs : initial_slashes (String sep (sep_join l)) = 1).
  { destruct l as [|c l]; [congruence |].
    pose proof (sep_join_startswith c l) as Hc.
    inversion H; subst. specialize (Hc ltac:(assumption)).
    destruct (sep_join (c :: l)) as [|x [|y r]]; simpl in *;
      [reflexivity | now rewrite Hc | now rewrite Hc]. }
  cbn [String.eqb]. rewrite Hs.
  cbn [split]. rewrite Ascii.eqb_refl. cbn [fold_left].
  change (normpath_step 1 [] "") with (@nil string).
  rewrite split_sep_join, fold_normpath_plain by assumption.
  reflexivity.
Qed.

(** [os.path.abspath] of a relative path of plain components, in the
    directory [dir]. *)
Lemma abspath_getcwd dir rel :
  Forall (fun c => plain c = true) dir ->
  Forall (fun c => plain c = true) rel -> rel <> [] ->
  abspath (getcwd dir) (sep_join rel) = getcwd (dir ++ rel).
Proof.
  intros Hd Hr Hne. unfold abspath, isabs, join.
  assert (Hrel : startswith (sep_join rel) sep = false).
  { destruct rel as [|c rel]; [congruence |]. inversion Hr; subst.
    now apply sep_join_startswith. }
  rewrite Hrel.
  assert (Hall : Forall (fun c => plain c = true) (dir ++ rel))
    by now apply Forall_app.
  assert (Hne' : dir ++ rel <> []) by (destruct dir; [exact Hne | discriminate]).
  destruct dir as [|d dir].
  - change (getcwd []) with "/". cbn [String.eqb Ascii.eqb Bool.eqb endswith orb].
    change ("/" +:+ sep_join rel) with (getcwd ([] ++ rel)).
    now apply normpath_getcwd.
  - assert (He : endswith (getcwd (d :: dir)) sep = false).
    { unfold getcwd. rewrite endswith_cons
        by (apply sep_join_nonempty; [discriminate | assumption]).
      apply sep_join_endswith; [discriminate | assumption]. }
    rewrite He. cbn [String.eqb getcwd orb].
    replace (getcwd (d :: dir) +:+ String sep (sep_join rel))
      with (getcwd ((d :: dir) ++ rel)); [now apply normpath_getcwd |].
    unfold getcwd. rewrite append_cons. f_equal.
    apply sep_join_app; [discriminate | assumption].
Qed.


End PathFacts.

(** ** The calls of a run *)

Lemma history_eq w k : history w k = trace w ++ firstn k (script w).
Proof.
  unfold history. generalize (firstn k (script w)) (trace w).
  intros l. induction l as [|c l IH]; intros h; simpl.
  - now rewrite app_nil_r.
  - rewrite IH, <- app_assoc. reflexivity.
Qed.

Arguments posixpath.abspath : simpl never.

(** ** Symbolic execution of [run] *)

Section Exec.

Variable env : Env.

Lemma bind_assoc {A B C} (m : M A) (f : A -> M B) (g : B -> M C) w :
  bind (bind m f) g w = bind m (fun x => bind (f x) g) w.
Proof. unfold bind. destruct (m w) as [[a|e] w1]; reflexivity. Qed.

Lemma bind_ret {A B} (a : A) (k : A -> M B) w : bind (ret a) k w = k a w.
Proof. reflexivity. Qed.

Lemma bind_gets {A B} (f : World -> A) (k : A -> M B) w :
  bind (gets f) k w = k (f w) w.
Proof. reflexivity. Qed.

Lemma bind_call {B} c pumps effect (k : Reply -> M B) w :
  bind (library_call env c pumps effect) k w =
  match raises (env (trace w) c) with
  | Some e => (Raise e, pumped env c pumps w)
  | None => k (env (trace w) c) (effect (env (trace w) c) (pumped env c pumps w))
  end.
Proof.
  unfold bind, library_call, pumped.
  destruct (raises (env (trace w) c)); reflexivity.
Qed.

Lemma with_sync_playwright_eq {A} (body : Playwright -> M A) w :
  with_sync_playwright env body w =
  match raises (env (trace w) sync_playwright_enter) with
  | Some e => (Raise e, log sync_playwright_enter w)
  | None =>
      let '(r, w2) := body PlaywrightObj
                        (set_driver Running (log sync_playwright_enter w)) in
      (r, playwright_exit w2)
  end.
Proof.
  unfold with_sync_playwright, sync_playwright.
  rewrite bind_call. unfold pumped.
  destruct (raises (env (trace w) sync_playwright_enter)); reflexivity.
Qed.

End Exec.

(** Normalisation of a world built from the setters into its fields. *)
Ltac world_norm :=
  cbn [cwd script_file files stdout driver browser releases pages location
       handlers slept trace set_files set_stdout set_driver set_browser
       set_page set_slept log dispatch write_file pumped].

(** One call of the script: expose whether it raises and split on it. *)
Ltac call_step :=
  rewrite ?bind_assoc; rewrite bind_call; world_norm;
  match goal with
  | |- context [match raises (?env ?h ?c) with _ => _ end] =>
      let E := fresh "E" in
      destruct (raises (env h c)) eqn:E;
      [ | rewrite ?bind_ret, ?bind_gets; cbv beta; world_norm ]
  end.

(** [run_cases] splits a goal about [run env w] into the ten ways a run can
    go: one per call that may raise, and the run in which none does.  In
    each case [run env w] is replaced by its result and final world. *)
Ltac run_cases :=
  unfold first_failure, script; cbn [first_failure_from];
  unfold run; rewrite with_sync_playwright_eq;
  match goal with
  | |- context [match raises (?env ?h sync_playwright_enter) with _ => _ end] =>
      let E := fresh "E" in
      destruct (raises (env h sync_playwright_enter)) eqn:E
  end;
  [ | unfold run_body, launch, new_page, on, abspath, goto, wait_for_timeout,
        screenshot, close;
      call_step; [ | call_step; [ | call_step; [ | call_step; [ | call_step;
      [ | call_step; [ | call_step; [ | call_step; [ | unfold ret ]]]]]]]] ];
  cbv beta iota.

Lemma run_outcome env w : fst (run env w) = outcome env w.
Proof. unfold outcome. run_cases; reflexivity. Qed.

(** ** What a release and the exit of the [with] block leave alone *)

Lemma release_browser_frame w :
  cwd (release_browser w) = cwd w /\ files (release_browser w) = files w /\
  stdout (release_browser w) = stdout w /\ pages (release_browser w) = pages w /\
  location (release_browser w) = location w /\
  handlers (release_browser w) = handlers w /\
  slept (release_browser w) = slept w /\ trace (release_browser w) = trace w /\
  driver (release_browser w) = driver w.
Proof. unfold release_browser. destruct (browser w); repeat split. Qed.

Lemma files_release_browser w : files (release_browser w) = files w.
Proof. apply release_browser_frame. Qed.
Lemma stdout_release_browser w : stdout (release_browser w) = stdout w.
Proof. apply release_browser_frame. Qed.
Lemma pages_release_browser w : pages (release_browser w) = pages w.
Proof. apply release_browser_frame. Qed.
Lemma location_release_browser w : location (release_browser w) = location w.
Proof. apply release_browser_frame. Qed.
Lemma handlers_release_browser w : handlers (release_browser w) = handlers w.
Proof. apply release_browser_frame. Qed.
Lemma slept_release_browser w : slept (release_browser w) = slept w.
Proof. apply release_browser_frame. Qed.
Lemma trace_release_browser w : trace (release_browser w) = trace w.
Proof. apply release_browser_frame. Qed.

Lemma files_playwright_exit w : files (playwright_exit w) = files w.
Proof. unfold playwright_exit. now rewrite files_release_browser. Qed.
Lemma stdout_playwright_exit w : stdout (playwright_exit w) = stdout w.
Proof. unfold playwright_exit. now rewrite stdout_release_browser. Qed.
Lemma pages_playwright_exit w : pages (playwright_exit w) = pages w.
Proof. unfold playwright_exit. now rewrite pages_release_browser. Qed.
Lemma location_playwright_exit w : location (playwright_exit w) = location w.
Proof. unfold playwright_exit. now rewrite location_release_browser. Qed.
Lemma handlers_playwright_exit w : handlers (playwright_exit w) = handlers w.
Proof. unfold playwright_exit. now rewrite handlers_release_browser. Qed.
Lemma slept_playwright_exit w : slept (playwright_exit w) = slept w.
Proof. unfold playwright_exit. now rewrite slept_release_browser. Qed.
Lemma trace_playwright_exit w :
  trace (playwright_exit w) = trace w ++ [sync_playwright_exit].
Proof. unfold playwright_exit. now rewrite trace_release_browser. Qed.

Create Rewrite HintDb world.
#[local] Hint Rewrite files_release_browser stdout_release_browser
  pages_release_browser location_release_browser handlers_release_browser
  slept_release_browser trace_release_browser files_playwright_exit
  stdout_playwright_exit pages_playwright_exit location_playwright_exit
  handlers_playwright_exit slept_playwright_exit trace_playwright_exit : world.

(** Reading a field of the final world of a case of [run_cases]. *)
Ltac read_field := cbn [fst snd]; autorewrite with world; world_norm.

(** ** The run, field by field *)

Lemma run_trace env w : trace (snd (run env w)) = trace w ++ calls_made env w.
Proof.
  unfold calls_made. run_cases; read_field; rewrite <- ?app_assoc; reflexivity.
Qed.

Lemma run_slept env w :
  slept (snd (run env w)) =
  if reaches env w 7 then (slept w + 2000)%Z else slept w.
Proof. unfold reaches. run_cases; read_field; reflexivity. Qed.

Lemma run_files env w :
  files (snd (run env w)) =
  if reaches env w 8
  then <[os_resolve w verification_png := png (reply_at env w 7)]> (files w)
  else files w.
Proof. unfold reaches. run_cases; read_field; reflexivity. Qed.

Lemma run_pages env w :
  pages (snd (run env w)) = if reaches env w 3 then S (pages w) else pages w.
Proof. unfold reaches. run_cases; read_field; reflexivity. Qed.

Lemma run_location env w :
  location (snd (run env w)) =
  if reaches env w 6
  then Some (file_url (posixpath.abspath (cwd w) index_html))
  else if reaches env w 3 then Some "about:blank" else location w.
Proof. unfold reaches. run_cases; read_field; reflexivity. Qed.

Lemma run_handlers env w :
  handlers (snd (run env w)) =
  if reaches env w 4 then [("console", console_observer)]
  else if reaches env w 3 then [] else handlers w.
Proof. unfold reaches. run_cases; read_field; reflexivity. Qed.

Lemma run_browser env w :
  reaches env w 2 = true ->
  browser (snd (run env w)) = Exited /\ releases (snd (run env w)) = S (releases w).
Proof.
  unfold reaches. run_cases; cbn [Nat.leb]; intros H; try discriminate H.
  all: cbn [fst snd]; unfold playwright_exit, release_browser; world_norm.
  all: split; reflexivity.
Qed.

Lemma run_driver env w :
  reaches env w 1 = true -> driver (snd (run env w)) = Exited.
Proof.
  unfold reaches. run_cases; cbn [Nat.leb]; intros H; try discriminate H.
  all: cbn [fst snd]; unfold playwright_exit.
  all: rewrite (proj2 (proj2 (proj2 (proj2 (proj2 (proj2 (proj2 (proj2
         (release_browser_frame _))))))))); reflexivity.
Qed.

Lemma first_failure_bound env w k e : first_failure env w = Some (k, e) -> k < 9.
Proof.
  unfold first_failure, script. cbn [first_failure_from].
  repeat (destruct (raises _); [intros H; inversion H; lia |]).
  discriminate.
Qed.

Lemma reaches_le env w j k :
  reaches env w k = true -> j <= k -> reaches env w j = true.
Proof.
  unfold reaches. destruct (first_failure env w) as [[i e]|]; [| reflexivity].
  intros H Hjk. apply Nat.leb_le in H. apply Nat.leb_le. lia.
Qed.

Lemma calls_made_shape env w :
  exists n, 1 <= n <= 9 /\
    calls_made env w =
      firstn n (script w) ++ (if Nat.leb 2 n then [sync_playwright_exit] else []) /\
    (first_failure env w = None -> n = 9).
Proof.
  unfold calls_made. destruct (first_failure env w) as [[[|k] e]|] eqn:F.
  - exists 1. repeat split; [lia | lia | discriminate].
  - apply first_failure_bound in F. exists (S (S k)).
    repeat split; [lia | lia | discriminate].
  - exists 9. repeat split; lia.
Qed.

(** ** Standard output *)

Lemma console_observer_eq msg out :
  console_observer msg out = out +:+ console_line msg.
Proof. reflexivity. Qed.

Lemma console_lines_app a b :
  console_lines (a ++ b) = console_lines a +:+ console_lines b.
Proof.
  induction a as [|m a IH]; [reflexivity |].
  cbn [app console_lines]. now rewrite IH, append_assoc.
Qed.

Lemma fold_emit_console msgs out :
  fold_left (fun o msg => emit "console" msg [("console", console_observer)] o)
            msgs out
  = out +:+ console_lines msgs.
Proof.
  revert out. induction msgs as [|m msgs IH]; intros out.
  - cbn [fold_left console_lines]. now rewrite append_nil_r.
  - cbn [fold_left console_lines]. rewrite IH.
    cbn [emit String.eqb Ascii.eqb Bool.eqb]. rewrite console_observer_eq.
    now rewrite append_assoc.
Qed.

Lemma run_stdout env w :
  stdout (snd (run env w)) = stdout w +:+ console_lines (delivered env w).
Proof.
  unfold delivered, reaches, reply_at, history.
  run_cases; read_field;
    cbn [app flat_map Nat.leb firstn nth fold_left];
    rewrite ?fold_emit_console, ?app_nil_r, ?console_lines_app, ?append_assoc;
    cbn [console_lines]; rewrite ?append_nil_r; reflexivity.
Qed.

(** ** The scenarios, run *)

Example run_quiet_trace :
  trace (snd (run quiet checkout)) =
  [ sync_playwright_enter; chromium_launch; browser_new_page; page_on "console";
    os_path_abspath "jules-scratch/verification/index.html";
    page_goto "file:///home/dev/Atlas/jules-scratch/verification/index.html";
    page_wait_for_timeout 2000;
    page_screenshot (Some "jules-scratch/verification/verification.png") None;
    browser_close; sync_playwright_exit ].
Proof. vm_compute. reflexivity. Qed.

Example run_ready_stdout :
  stdout (snd (run ready_page checkout)) = "CONSOLE: ready" +:+ String newline "".
Proof. vm_compute. reflexivity. Qed.

Example run_missing_page :
  fst (run missing_page checkout) = Raise net_error /\
  browser (snd (run missing_page checkout)) = Exited.
Proof. vm_compute. split; reflexivity. Qed.

Example run_quiet_files :
  files (snd (run quiet checkout))
    !! "/home/dev/Atlas/jules-scratch/verification/verification.png" = Some "PNG".
Proof. vm_compute. reflexivity. Qed.

(** ** File URLs *)

Example file_of_url_plain :
  file_of_url "file:///home/dev/Atlas/jules-scratch/verification/index.html"
  = Some "/home/dev/Atlas/jules-scratch/verification/index.html".
Proof. reflexivity. Qed.

Example file_of_url_fragment :
  file_of_url "file:///tmp/a#b/jules-scratch/verification/index.html"
  = Some "/tmp/a".
Proof. reflexivity. Qed.

Example file_of_url_query :
  file_of_url "file:///tmp/a?b/jules-scratch/verification/index.html"
  = Some "/tmp/a".
Proof. reflexivity. Qed.

Example file_of_url_escape : file_of_url "file:///tmp/%41/index.html" = None.
Proof. reflexivity. Qed.








(** * Part III: the claims *)

(** C1, as stated, fails: in a run in which every call returns, the only
    screenshot call leaves [full_page] out, and Playwright then captures
    the viewport, not the full page. *)
Lemma screenshot_is_not_full_page :
  ~ (forall env w,
       reaches env w 7 = true ->
       exists path full_page,
         In (page_screenshot path full_page) (trace (snd (run env w))) /\
         captures_full_page full_page = true).
Proof.
  intros H. destruct (H quiet checkout eq_refl) as (path & fp & Hin & Hfp).
  rewrite run_quiet_trace in Hin. cbn [In] in Hin.
  repeat (destruct Hin as [Hin | Hin]; [try discriminate Hin |]).
  - inversion Hin; subst. discriminate Hfp.
  - destruct Hin.
Qed.

(** C1, amended: whenever the calls before it return, the screenshot call
    is made with the fixed relative path and without [full_page], so the
    library default (viewport only) applies; when the call returns, the
    image is the content of that file under the working directory,
    whatever the file held before, and no other file changes. *)
Theorem screenshot_written env w :
  reaches env w 7 = true ->
  (exists rest,
     trace (snd (run env w)) =
     trace w ++ firstn 7 (script w)
       ++ page_screenshot (Some "jules-scratch/verification/verification.png") None
       :: rest) /\
  captures_full_page None = false /\
  (reaches env w 8 = true ->
   files (snd (run env w)) =
   <[posixpath.abspath (cwd w) "jules-scratch/verification/verification.png"
       := png (reply_at env w 7)]> (files w)).
Proof.
  intros H. split; [| split; [reflexivity |]].
  - rewrite run_trace. unfold calls_made. unfold reaches in H.
    destruct (first_failure env w) as [[k e]|] eqn:F.
    + pose proof (first_failure_bound _ _ _ _ F) as Hk.
      apply Nat.leb_le in H.
      assert (Hk' : k = 7 \/ k = 8) by lia.
      destruct Hk' as [-> | ->]; eexists; reflexivity.
    + eexists; reflexivity.
  - intros H8. rewrite run_files, H8. reflexivity.
Qed.

Lemma screenshot_written_witness :
  files (snd (run quiet checkout))
    !! "/home/dev/Atlas/jules-scratch/verification/verification.png"
  = Some (png (reply_at quiet checkout 7)).
Proof.
  destruct (screenshot_written quiet checkout eq_refl) as (_ & _ & H).
  rewrite (H eq_refl). apply lookup_insert_eq.
Defined.

(** C2: once the browser is launched, the browser process is released
    exactly once by the time [run] returns or raises, whatever the later
    calls do; the driver is stopped as well. *)
Theorem browser_released_once env w :
  reaches env w 2 = true ->
  browser (snd (run env w)) = Exited /\
  releases (snd (run env w)) = S (releases w) /\
  driver (snd (run env w)) = Exited.
Proof.
  intros H. destruct (run_browser env w H) as [Hb Hr].
  repeat split; try assumption.
  apply run_driver. unfold reaches in *.
  destruct (first_failure env w) as [[k e]|]; [| reflexivity].
  apply Nat.leb_le in H. apply Nat.leb_le. lia.
Qed.

Lemma browser_released_once_witness :
  browser (snd (run missing_page checkout)) = Exited /\
  releases (snd (run missing_page checkout)) = 1 /\
  driver (snd (run missing_page checkout)) = Exited.
Proof. apply (browser_released_once missing_page checkout). reflexivity. Defined.

(** C3: [run] handles nothing.  The exception of the first call that
    raises is the exception [run] raises, no call is made after it except
    the exit of the [with] block, and no call is repeated; when no call
    raises, [run] returns [None]. *)
Theorem run_propagates env w :
  match first_failure env w with
  | Some (k, e) =>
      fst (run env w) = Raise e /\
      trace (snd (run env w)) =
      trace w ++ firstn (S k) (script w)
        ++ (if Nat.eqb k 0 then [] else [sync_playwright_exit])
  | None =>
      fst (run env w) = Ok tt /\
      trace (snd (run env w)) = trace w ++ script w ++ [sync_playwright_exit]
  end.
Proof.
  rewrite run_outcome, run_trace. unfold outcome, calls_made.
  destruct (first_failure env w) as [[[|k] e]|]; split; reflexivity.
Qed.

(** C4: when navigation is the first call to raise, [run] raises the same
    exception, no screenshot call is made and no file changes. *)
Theorem navigation_failure_writes_nothing env w e :
  first_failure env w = Some (5, e) ->
  fst (run env w) = Raise e /\
  files (snd (run env w)) = files w /\
  trace (snd (run env w)) = trace w ++ firstn 6 (script w) ++ [sync_playwright_exit] /\
  existsb is_screenshot (firstn 6 (script w) ++ [sync_playwright_exit]) = false.
Proof.
  intros F. rewrite run_outcome, run_files, run_trace.
  unfold outcome, reaches, calls_made. rewrite F.
  repeat split; reflexivity.
Qed.

Lemma navigation_failure_writes_nothing_witness :
  fst (run missing_page checkout) = Raise net_error /\
  files (snd (run missing_page checkout)) = files checkout /\
  trace (snd (run missing_page checkout)) =
    trace checkout ++ firstn 6 (script checkout) ++ [sync_playwright_exit] /\
  existsb is_screenshot (firstn 6 (script checkout) ++ [sync_playwright_exit]) = false.
Proof.
  apply (navigation_failure_writes_nothing missing_page checkout net_error).
  reflexivity.
Defined.

(** C5: the calls of a run are an initial segment of the eight steps in
    program order (the scope entry belonging to the launch), closed by the
    exit of the [with] block once it was entered; a run that returns made
    all of them; no call occurs twice; the observer is registered before any
    navigation and the wait comes before any screenshot. *)
Theorem run_call_order env w :
  let url := "file://" +:+ posixpath.abspath (cwd w) "jules-scratch/verification/index.html" in
  let shot := page_screenshot (Some "jules-scratch/verification/verification.png") None in
  let plan :=
    [ sync_playwright_enter; chromium_launch; browser_new_page;
      page_on "console"; os_path_abspath "jules-scratch/verification/index.html";
      page_goto url; page_wait_for_timeout 2000; shot; browser_close ] in
  exists n made,
    1 <= n <= 9 /\
    made = firstn n plan ++ (if Nat.leb 2 n then [sync_playwright_exit] else []) /\
    trace (snd (run env w)) = trace w ++ made /\
    (fst (run env w) = Ok tt -> n = 9) /\
    NoDup (plan ++ [sync_playwright_exit]) /\
    (In (page_goto url) made -> precedes (page_on "console") (page_goto url) made) /\
    (In shot made -> precedes (page_wait_for_timeout 2000) shot made).
Proof.
  intros url shot plan.
  destruct (calls_made_shape env w) as (n & Hn & Hm & Hok).
  exists n, (firstn n plan ++ (if Nat.leb 2 n then [sync_playwright_exit] else [])).
  split; [exact Hn |]. split; [reflexivity |].
  split; [rewrite run_trace, Hm; reflexivity |].
  split.
  { rewrite run_outcome. unfold outcome.
    destruct (first_failure env w) as [[k e]|]; [discriminate | auto]. }
  split.
  { subst plan url shot. cbn [app]. apply NoDup_ListNoDup.
    repeat (constructor; [cbn [In]; intuition discriminate |]).
    constructor. }
  assert (Hcases : n = 1 \/ n = 2 \/ n = 3 \/ n = 4 \/ n = 5 \/ n = 6 \/ n = 7
                   \/ n = 8 \/ n = 9) by lia.
  clear Hm Hok Hn. subst plan url shot.
  split; intros Hin.
  - repeat (destruct Hcases as [-> | Hcases]; [| try subst n]);
      cbn [firstn Nat.leb app In] in Hin |- *;
      try (exfalso; intuition discriminate);
      exists [sync_playwright_enter; chromium_launch; browser_new_page],
             [os_path_abspath "jules-scratch/verification/index.html"];
      eexists; reflexivity.
  - repeat (destruct Hcases as [-> | Hcases]; [| try subst n]);
      cbn [firstn Nat.leb app In] in Hin |- *;
      try (exfalso; intuition discriminate);
      exists [sync_playwright_enter; chromium_launch; browser_new_page;
              page_on "console";
              os_path_abspath "jules-scratch/verification/index.html";
              page_goto ("file://" +:+ posixpath.abspath (cwd w)
                           "jules-scratch/verification/index.html")],
             [];
      eexists; reflexivity.
Qed.

Lemma run_call_order_witness :
  exists made,
    trace (snd (run quiet checkout)) = trace checkout ++ made /\
    length made = 10 /\
    precedes (page_on "console")
      (page_goto "file:///home/dev/Atlas/jules-scratch/verification/index.html")
      made /\
    precedes (page_wait_for_timeout 2000)
      (page_screenshot (Some "jules-scratch/verification/verification.png") None)
      made.
Proof.
  destruct (run_call_order quiet checkout)
    as (n & made & Hn & Hmade & Htrace & Hok & _ & Hgoto & Hshot).
  assert (n = 9) as -> by (apply Hok; reflexivity).
  exists made. subst made. split; [exact Htrace |]. split; [reflexivity |].
  split; [apply Hgoto | apply Hshot]; cbn; tauto.
Defined.

(** C6, as stated, fails: for a console message whose text contains a line
    break, the observer writes two lines, not one. *)
Lemma console_message_may_span_lines :
  lines_written "" (console_observer two_line_message "") <> 1.
Proof. vm_compute. discriminate. Qed.

(** C6, amended: for every console message delivered to the observer,
    standard output grows by exactly the text [CONSOLE: ] followed by the
    message text and a newline; the lines this adds number one plus the line
    breaks in the message text (so one line when the text has none); nothing
    but standard output changes when messages are delivered, so no message
    is retained.  Over a run, standard output grows by exactly these texts
    for the messages delivered, in delivery order, and the observer is the
    only one registered on the page. *)
Theorem console_observer_writes env w msg out :
  console_observer msg out = out +:+ "CONSOLE: " +:+ text msg +:+ String newline "" /\
  lines_written out (console_observer msg out) = S (count_char newline (text msg)) /\
  (forall msgs, set_stdout (stdout w) (dispatch msgs w) = w) /\
  stdout (snd (run env w)) = stdout w +:+ console_lines (delivered env w) /\
  handlers (snd (run env w)) =
    (if reaches env w 4 then [("console", console_observer)]
     else if reaches env w 3 then [] else handlers w).
Proof.
  split; [reflexivity |].
  split; [| split; [| split; [apply run_stdout | apply run_handlers]]].
  - unfold lines_written. rewrite console_observer_eq. unfold console_line.
    rewrite !count_char_app. cbn. lia.
  - intros msgs. destruct w. reflexivity.
Qed.

(** C7: once navigation has returned, the next call is
    [wait_for_timeout(2000)], and the call after it, if any, is the
    screenshot; the run spends exactly 2000 ms in fixed waits when the wait
    returns, whatever the page does. *)
Theorem fixed_settle_delay env w :
  reaches env w 6 = true ->
  let url := "file://" +:+ posixpath.abspath (cwd w) "jules-scratch/verification/index.html" in
  (exists rest,
     trace (snd (run env w)) =
     trace w ++ [ sync_playwright_enter; chromium_launch; browser_new_page;
                  page_on "console";
                  os_path_abspath "jules-scratch/verification/index.html";
                  page_goto url; page_wait_for_timeout 2000 ] ++ rest /\
     (rest = [sync_playwright_exit] \/
      exists rest',
        rest = page_screenshot (Some "jules-scratch/verification/verification.png") None
               :: rest' /\
        existsb (fun c => match c with page_wait_for_timeout _ => true | _ => false end)
                rest' = false)) /\
  slept (snd (run env w)) = (if reaches env w 7 then slept w + 2000 else slept w)%Z.
Proof.
  intros H url. split; [| apply run_slept].
  rewrite run_trace. unfold calls_made. unfold reaches in H.
  destruct (first_failure env w) as [[k e]|] eqn:F.
  - pose proof (first_failure_bound _ _ _ _ F) as Hk. apply Nat.leb_le in H.
    assert (Hk' : k = 6 \/ k = 7 \/ k = 8) by lia.
    destruct Hk' as [-> | [-> | ->]]; eexists; (split; [reflexivity |]).
    + left; reflexivity.
    + right; eexists; split; reflexivity.
    + right; eexists; split; reflexivity.
  - eexists; split; [reflexivity |]. right; eexists; split; reflexivity.
Qed.

Lemma fixed_settle_delay_witness :
  slept (snd (run ready_page checkout)) = 2000%Z.
Proof.
  destruct (fixed_settle_delay ready_page checkout eq_refl) as [_ H].
  exact H.
Defined.

(** C8: the URL the page is sent to is [file://] followed by
    [os.path.abspath] of the fixed relative path, that is, the normalised
    join of the working directory and that path; when navigation returns
    the page shows that URL.  In a working directory [/d1/.../dn] the URL is
    [file:///d1/.../dn/jules-scratch/verification/index.html]. *)
Theorem navigation_target env w :
  reaches env w 5 = true ->
  let html_file_path :=
    posixpath.normpath (posixpath.join (cwd w) "jules-scratch/verification/index.html") in
  posixpath.abspath (cwd w) "jules-scratch/verification/index.html" = html_file_path /\
  (exists rest,
     trace (snd (run env w)) =
     trace w ++ [ sync_playwright_enter; chromium_launch; browser_new_page;
                  page_on "console";
                  os_path_abspath "jules-scratch/verification/index.html";
                  page_goto ("file://" +:+ html_file_path) ] ++ rest /\
     existsb (fun c => match c with page_goto _ => true | _ => false end) rest = false) /\
  (reaches env w 6 = true ->
   location (snd (run env w)) = Some ("file://" +:+ html_file_path)) /\
  (forall dir, Forall (fun c => plain c = true) dir -> cwd w = getcwd dir ->
     html_file_path = getcwd (dir ++ ["jules-scratch"; "verification"; "index.html"])).
Proof.
  intros H html_file_path.
  assert (Ha : posixpath.abspath (cwd w) "jules-scratch/verification/index.html"
               = html_file_path) by reflexivity.
  split; [exact Ha |]. split; [| split].
  - rewrite run_trace. unfold calls_made. unfold reaches in H.
    destruct (first_failure env w) as [[k e]|] eqn:F.
    + pose proof (first_failure_bound _ _ _ _ F) as Hk. apply Nat.leb_le in H.
      assert (Hk' : k = 5 \/ k = 6 \/ k = 7 \/ k = 8) by lia.
      destruct Hk' as [-> | [-> | [-> | ->]]]; eexists; split; reflexivity.
    + eexists; split; reflexivity.
  - intros H6. rewrite run_location, H6. reflexivity.
  - intros dir Hd Hc. rewrite <- Ha, Hc.
    apply (abspath_getcwd dir ["jules-scratch"; "verification"; "index.html"]);
      [assumption | repeat constructor | discriminate].
Qed.

Lemma navigation_target_witness :
  location (snd (run quiet checkout))
  = Some "file:///home/dev/Atlas/jules-scratch/verification/index.html".
Proof.
  destruct (navigation_target quiet checkout eq_refl) as (_ & _ & H & _).
  exact (H eq_refl).
Defined.




(** C10: the module runs [run()] only under the name [__main__]; imported
    under any other name it makes no library call and leaves the world as
    it was. *)
Theorem import_runs_nothing env name w :
  name <> "__main__" ->
  module_body env name w = (Ok tt, w) /\
  module_body env "__main__" w = run env w.
Proof.
  intros H. split; [| reflexivity].
  unfold module_body. destruct (String.eqb_spec name "__main__"); [contradiction |].
  reflexivity.
Qed.

Lemma import_runs_nothing_witness :
  module_body quiet "verify_map" checkout = (Ok tt, checkout) /\
  module_body quiet "__main__" checkout = run quiet checkout.
Proof. apply (import_runs_nothing quiet "verify_map" checkout). discriminate. Defined.

(** * Part IV: further properties of [run] *)

Lemma cwd_release_browser w : cwd (release_browser w) = cwd w.
Proof. apply release_browser_frame. Qed.

Lemma cwd_playwright_exit w : cwd (playwright_exit w) = cwd w.
Proof. unfold playwright_exit. now rewrite cwd_release_browser. Qed.

Lemma script_file_playwright_exit w :
  script_file (playwright_exit w) = script_file w.
Proof.
  unfold playwright_exit, release_browser.
  destruct (browser _); reflexivity.
Qed.

#[local] Hint Rewrite cwd_release_browser cwd_playwright_exit
  script_file_playwright_exit : world.

Lemma run_cwd env w : cwd (snd (run env w)) = cwd w.
Proof.
  assert (H : first_failure env w = first_failure env w ->
              cwd (snd (run env w)) = cwd w); [| now apply H].
  run_cases; intros _; read_field; reflexivity.
Qed.

Lemma run_script_file env w : script_file (snd (run env w)) = script_file w.
Proof.
  assert (H : first_failure env w = first_failure env w ->
              script_file (snd (run env w)) = script_file w); [| now apply H].
  run_cases; intros _; read_field; reflexivity.
Qed.

Lemma count_newline_console_lines msgs :
  Forall (fun m => single_line m = true) msgs ->
  count_char newline (console_lines msgs) = length msgs.
Proof.
  induction 1 as [|m msgs Hm _ IH]; [reflexivity |].
  cbn [console_lines length]. unfold console_line.
  rewrite !count_char_app, IH. apply Nat.eqb_eq in Hm. rewrite Hm.
  reflexivity.
Qed.

(** X1: a second complete run replaces the screenshot of the first: after
    both, the file holds the image of the second run and every other file is
    as before the first. *)
Theorem rerun_overwrites env1 env2 w :
  reaches env1 w 9 = true ->
  reaches env2 (snd (run env1 w)) 9 = true ->
  files (snd (run env2 (snd (run env1 w)))) =
  <[os_resolve w verification_png := png (reply_at env2 (snd (run env1 w)) 7)]>
    (files w).
Proof.
  intros H1 H2.
  rewrite (run_files env2), (reaches_le _ _ 8 9 H2) by lia.
  rewrite (run_files env1), (reaches_le _ _ 8 9 H1) by lia.
  unfold os_resolve. rewrite run_cwd. apply insert_insert_eq.
Qed.

Lemma rerun_overwrites_witness :
  files (snd (run second_shot (snd (run quiet checkout))))
    !! "/home/dev/Atlas/jules-scratch/verification/verification.png"
  = Some "PNG2".
Proof.
  rewrite (rerun_overwrites quiet second_shot checkout eq_refl eq_refl).
  apply lookup_insert_eq.
Defined.

(** X2: on every path through [run], the only file that can change is the
    screenshot under the working directory; the working directory itself
    and the location of the script stay as they were. *)
Theorem run_touches_one_file env w path :
  path <> posixpath.abspath (cwd w) "jules-scratch/verification/verification.png" ->
  files (snd (run env w)) !! path = files w !! path /\
  cwd (snd (run env w)) = cwd w /\
  script_file (snd (run env w)) = script_file w.
Proof.
  intros Hp. split; [| split; [apply run_cwd | apply run_script_file]].
  rewrite run_files. destruct (reaches env w 8); [| reflexivity].
  apply lookup_insert_ne. intros E. apply Hp. symmetry. exact E.
Qed.

Lemma run_touches_one_file_witness :
  files (snd (run quiet checkout))
    !! "/home/dev/Atlas/jules-scratch/verification/index.html"
  = files checkout !! "/home/dev/Atlas/jules-scratch/verification/index.html" /\
  cwd (snd (run quiet checkout)) = cwd checkout /\
  script_file (snd (run quiet checkout)) = script_file checkout.
Proof.
  apply (run_touches_one_file quiet checkout
           "/home/dev/Atlas/jules-scratch/verification/index.html").
  discriminate.
Defined.

(** X3: when a call before the screenshot raises, [run] raises and every
    file is left untouched; when [browser.close()] raises, [run] raises as
    well, but the new screenshot is in place.  (Nothing is said of the files
    when the screenshot call itself raises.) *)
Theorem failure_and_screenshot env w k e :
  first_failure env w = Some (k, e) ->
  k <> 7 ->
  fst (run env w) = Raise e /\
  files (snd (run env w)) =
    (if Nat.eqb k 8
     then <[posixpath.abspath (cwd w) "jules-scratch/verification/verification.png"
              := png (reply_at env w 7)]> (files w)
     else files w).
Proof.
  intros F _. rewrite run_outcome, run_files. unfold outcome, reaches. rewrite F.
  split; [reflexivity |].
  pose proof (first_failure_bound _ _ _ _ F) as Hk.
  destruct (Nat.leb_spec 8 k) as [H8 | H8].
  - assert (k = 8) as -> by lia. reflexivity.
  - destruct (Nat.eqb_spec k 8) as [-> | _]; [lia | reflexivity].
Qed.

Lemma failure_and_screenshot_witness :
  fst (run close_fails checkout) = Raise close_error /\
  files (snd (run close_fails checkout))
    !! "/home/dev/Atlas/jules-scratch/verification/verification.png" = Some "PNG".
Proof.
  destruct (failure_and_screenshot close_fails checkout 8 close_error eq_refl)
    as [Hr Hf]; [discriminate |].
  split; [exact Hr |]. rewrite Hf. apply lookup_insert_eq.
Defined.

(** X4: when Playwright cannot be started, [run] raises that exception and
    does nothing else: the block is not entered, so no browser, page, output
    or file is touched and the exit of the block is not run. *)
Theorem start_failure_does_nothing env w e :
  first_failure env w = Some (0, e) ->
  run env w = (Raise e, log sync_playwright_enter w).
Proof.
  run_cases; intros F; try discriminate F.
  inversion F; subst. reflexivity.
Qed.

Lemma start_failure_does_nothing_witness :
  run no_driver checkout = (Raise driver_error, log sync_playwright_enter checkout).
Proof. apply (start_failure_does_nothing no_driver checkout driver_error). reflexivity. Defined.

(** X5: when the launch raises, the driver that was started is stopped all
    the same; no browser is released, since none was acquired, no page is
    opened, and nothing is printed or written. *)
Theorem launch_failure_cleans_up env w e :
  first_failure env w = Some (1, e) ->
  browser w <> Running ->
  fst (run env w) = Raise e /\
  driver (snd (run env w)) = Exited /\
  browser (snd (run env w)) = browser w /\
  releases (snd (run env w)) = releases w /\
  pages (snd (run env w)) = pages w /\
  stdout (snd (run env w)) = stdout w /\
  files (snd (run env w)) = files w.
Proof.
  intros F Hb.
  assert (Hbr : browser (snd (run env w)) = browser w /\
                releases (snd (run env w)) = releases w).
  { revert F. run_cases; intros F; try discriminate F.
    cbn [fst snd]. unfold playwright_exit, release_browser. world_norm.
    destruct (browser w) eqn:B; try contradiction;
      world_norm; rewrite ?B; split; reflexivity. }
  destruct Hbr as [Hb1 Hb2].
  split; [rewrite run_outcome; unfold outcome; now rewrite F |].
  split; [apply run_driver; unfold reaches; now rewrite F |].
  split; [exact Hb1 |]. split; [exact Hb2 |].
  split; [rewrite run_pages; unfold reaches; now rewrite F |].
  split; [| rewrite run_files; unfold reaches; now rewrite F].
  rewrite run_stdout. unfold delivered, reaches. rewrite F.
  cbn [flat_map Nat.leb app console_lines]. apply append_nil_r.
Qed.

Lemma launch_failure_cleans_up_witness :
  fst (run launch_fails checkout) = Raise launch_error /\
  driver (snd (run launch_fails checkout)) = Exited /\
  browser (snd (run launch_fails checkout)) = NotStarted /\
  releases (snd (run launch_fails checkout)) = 0 /\
  pages (snd (run launch_fails checkout)) = 0 /\
  stdout (snd (run launch_fails checkout)) = "" /\
  files (snd (run launch_fails checkout)) = files checkout.
Proof.
  apply (launch_failure_cleans_up launch_fails checkout launch_error).
  - reflexivity.
  - discriminate.
Defined.

(** X6: when no delivered message contains a line break, a run adds to
    standard output exactly one line per message delivered; a run that does
    not get as far as the navigation prints nothing. *)
Theorem one_line_per_message env w :
  Forall (fun m => single_line m = true) (delivered env w) ->
  lines_written (stdout w) (stdout (snd (run env w))) = length (delivered env w) /\
  (reaches env w 5 = false -> stdout (snd (run env w)) = stdout w).
Proof.
  intros H. rewrite run_stdout. split.
  - unfold lines_written. rewrite count_char_app.
    rewrite count_newline_console_lines by assumption. lia.
  - intros H5. unfold delivered.
    assert (Hk : forall k, 5 <= k -> reaches env w k = false).
    { intros k Hk. destruct (reaches env w k) eqn:E; [| reflexivity].
      rewrite (reaches_le env w 5 k E Hk) in H5. discriminate. }
    cbn [flat_map]. rewrite !Hk by lia. apply append_nil_r.
Qed.

Lemma one_line_per_message_witness :
  lines_written (stdout checkout) (stdout (snd (run ready_page checkout))) = 1.
Proof.
  destruct (one_line_per_message ready_page checkout) as [H _].
  - repeat constructor.
  - exact H.
Defined.
